(** * The Guardian: the scan workflow of [app.py]

    A shallow embedding of [src/TheGuardian/app.py]: the model loader
    [load_model], the detection procedure [_run_detection], the reset
    action [reset_all], the tab handlers and the way they are wired to
    the two buttons.

    Python values are modelled as the code has them: a Python [float] is a
    binary64 value ([PrimFloat.float]), a Python [int] is a [Z], a [str]
    is a [string] holding the UTF-8 bytes of the text, a [dict] is a
    [gmap], [None] is [None] of an [option].  The detector, the clock, the
    file system and the progress tracker are external: they live in an
    explicit [World] threaded through a state-and-exception monad. *)

From Stdlib Require Import ZArith NArith PArith String Ascii List Lia Permutation.
From Stdlib Require Import Floats.
From stdpp Require Import base option list gmap strings pretty.

Set Warnings "-inexact-float".

Local Open Scope string_scope.
Local Open Scope Z_scope.

(** ** Python values *)

Module Py.

(** Exceptions the modelled code can let escape. *)
Inductive exn :=
| ValueError       (* int(nan) *)
| OverflowError    (* int(inf) *)
| RuntimeError (msg : string).  (* a fault inside the external detector or loader *)

(** [str(n)] for an [int]. *)
Definition str (n : Z) : string := pretty n.

(** [int(x)] for a [float]: truncation toward zero; it raises on nan and
    on the infinities. *)
Definition int (x : float) : exn + Z :=
  match Prim2SF x with
  | S754_nan => inl ValueError
  | S754_infinity _ => inl OverflowError
  | S754_zero _ => inr 0
  | S754_finite s m e =>
      let a := if 0 <=? e then Z.pos m * 2 ^ e else Z.pos m / 2 ^ (- e) in
      inr (if s then - a else a)
  end.

(** The integer nearest to [a / b] for [0 < b], ties to the even one. *)
Definition round_half_even (a b : Z) : Z :=
  let q := a / b in
  match 2 * (a mod b) ?= b with
  | Lt => q
  | Gt => q + 1
  | Eq => if Z.even q then q else q + 1
  end.

(** [|x| * 10^d] rounded to an integer, for the finite [x = m * 2^e]:
    the decimal conversion of a format specification is correctly
    rounded on the exact binary value. *)
Definition scaled (d : nat) (m : positive) (e : Z) : Z :=
  let a := Z.pos m * 10 ^ Z.of_nat d in
  if 0 <=? e then a * 2 ^ e else round_half_even a (2 ^ (- e)).

Definition digit (n : Z) : ascii := pretty_N_char (Z.to_N n).

(** The last [d] decimal digits of [n], most significant first. *)
Fixpoint frac_digits (d : nat) (n : Z) : string :=
  match d with
  | O => ""
  | S d' => frac_digits d' (n / 10) +:+ String (digit (n mod 10)) ""
  end.

(** [q], a count of [10^-d] units, written with [d] decimals. *)
Definition fixed (d : nat) (q : Z) : string :=
  let p := 10 ^ Z.of_nat d in
  match d with
  | O => str q
  | S _ => str (q / p) +:+ "." +:+ frac_digits d (q mod p)
  end.

Definition sign_str (s : bool) : string := if s then "-" else "".

(** [format(x, ".<d>f")], the [f"{x:.<d>f}"] of an f-string. *)
Definition format_f (d : nat) (x : float) : string :=
  match Prim2SF x with
  | S754_nan => "nan"
  | S754_infinity s => sign_str s +:+ "inf"
  | S754_zero s => sign_str s +:+ fixed d 0
  | S754_finite s m e => sign_str s +:+ fixed d (scaled d m e)
  end.

End Py.

(** ** The external world *)

(** A numpy array: the uploaded image and the annotated rendering.  The
    code never looks inside one. *)
Inductive ndarray := NDArray (shape : list nat) (data : list Z).

(** One detected object [b] of [results[0].boxes], through the two
    projections the code reads: [int(b.cls[0])] and [float(b.conf[0])]. *)
Record Box := { cls : Z; conf : float }.

(** [results[0]] of a detector call on one image: the rendering
    [.plot()] returns, the label table [.names] and [.boxes]. *)
Record Results := {
  plot : ndarray;
  names : gmap Z string;
  boxes : option (list Box)
}.

(** A loaded model, called as [model(image)]; [inl] is a fault inside
    the detector, which the code does not catch. *)
Definition Detector : Type := ndarray -> Py.exn + Results.

(** What a file on disk holds. *)
Inductive File :=
| Blob (bytes : list Z)
| Png (pixels : ndarray).

(** What the detection procedure does to the outside, in program order. *)
Inductive Event :=
| Progress (p : float) (desc : string)   (* progress(p, desc=...) *)
| Sleep (secs : float).                  (* time.sleep(secs) *)

Record World := {
  files : gmap string File;       (* regular files, by path *)
  dirs : gset string;             (* directories, by path *)
  time_source : nat -> float;     (* what the n-th call of time.time() returns *)
  time_calls : nat;               (* calls of time.time() so far *)
  trace : list Event              (* oldest first *)
}.

(** ** A state-and-exception monad over the world *)

Definition M (A : Type) : Type := World -> (Py.exn + A) * World.

#[global] Instance M_ret : MRet M := fun A a w => (inr a, w).

#[global] Instance M_bind : MBind M := fun A B k m w =>
  match m w with
  | (inr a, w') => k a w'
  | (inl e, w') => (inl e, w')
  end.

(** An exception-or-value computed outside the world. *)
Definition lift {A} (r : Py.exn + A) : M A := fun w => (r, w).

(** The world after one more event, one more reading of the clock, a
    file written, a directory made. *)
Definition log (ev : Event) (w : World) : World :=
  {| files := files w; dirs := dirs w; time_source := time_source w;
     time_calls := time_calls w; trace := trace w ++ [ev] |}.

Definition tick (w : World) : World :=
  {| files := files w; dirs := dirs w; time_source := time_source w;
     time_calls := S (time_calls w); trace := trace w |}.

Definition write (path : string) (f : File) (w : World) : World :=
  {| files := <[path := f]> (files w); dirs := dirs w; time_source := time_source w;
     time_calls := time_calls w; trace := trace w |}.

Definition add_dir (path : string) (w : World) : World :=
  {| files := files w; dirs := {[path]} ∪ dirs w; time_source := time_source w;
     time_calls := time_calls w; trace := trace w |}.

(** [time.time()] *)
Definition time_time : M float := fun w => (inr (time_source w (time_calls w)), tick w).

Definition emit (ev : Event) : M unit := fun w => (inr tt, log ev w).

(** [time.sleep(secs)] *)
Definition time_sleep (secs : float) : M unit := emit (Sleep secs).

(** [progress(p, desc=desc)] *)
Definition progress (p : float) (desc : string) : M unit := emit (Progress p desc).

(** [Image.fromarray(a).save(path)]: the file at [path] is created or
    replaced. *)
Definition save (path : string) (a : ndarray) : M unit := fun w =>
  (inr tt, write path (Png a) w).

(** [path.exists()] *)
Definition exists_ (path : string) : M bool := fun w =>
  (inr (bool_decide (is_Some (files w !! path) \/ path ∈ dirs w)), w).

(** [path.mkdir(exist_ok=True)] *)
Definition mkdir (path : string) : M unit := fun w => (inr tt, add_dir path w).

(** [for x in xs: body(x)] *)
Fixpoint for_ {A} (xs : list A) (body : A -> M unit) : M unit :=
  match xs with
  | [] => mret tt
  | x :: xs' => body x ≫= fun _ => for_ xs' body
  end.

(** The progress updates of a trace, oldest first. *)
Definition progress_of (t : list Event) : list (float * string) :=
  omap (fun ev => match ev with Progress p d => Some (p, d) | Sleep _ => None end) t.

(** ** The application *)

(** [a / b] on paths, as the string [str] gives. *)
Definition joinpath (a b : string) : string := a +:+ "/" +:+ b.
Infix "//" := joinpath (at level 40, left associativity).

Definition nl : string := String (ascii_of_nat 10) "".

(** The module-level pair [model, MODEL_MODE]. *)
Record App := { model : Detector; MODEL_MODE : string }.

(** What [_run_detection] returns, for the outputs
    [prog, out_img, detections, meta, download]. *)
Definition Outputs : Type :=
  Z * option ndarray * list (list string) * string * option string.

Section Guardian.

(** The directory of [app.py], [Path(__file__).parent]. *)
Variable ROOT : string.
(** The constructor [YOLO(model_path)] of the detection library; [inl] is
    a failure to load the weights. *)
Variable YOLO : string -> Py.exn + Detector.

Definition WEIGHTS : string := ROOT // "weights" // "best.pt".
Definition OUTPUTS : string := ROOT // "outputs".

Definition load_model : M (Detector * string) :=
  found ← exists_ WEIGHTS;
  let '(model_path, mode) :=
    if found : bool
    then (WEIGHTS, "✅ Using local model: weights/best.pt")
    else ("yolov8n.pt",
          "⚠️ Demo mode: weights/best.pt not found. Falling back to yolov8n.pt") in
  m ← lift (YOLO model_path);
  mret (m, mode).

(** The statements the module runs before it builds the page. *)
Definition startup : M App :=
  _ ← mkdir OUTPUTS;
  '(m, mode) ← load_model;
  mret {| model := m; MODEL_MODE := mode |}.

(** The list the [for p, msg in ...] loop of [_run_detection] walks. *)
Definition checkpoints : list (float * string) :=
  [ (0.15, "Pre-processing…");
    (0.35, "Running inference…");
    (0.55, "Extracting detections…");
    (0.75, "Rendering bounding boxes…");
    (0.90, "Finalizing output…") ]%float.

(** One pass of the [for b in results[0].boxes] loop: [rows.append(...)]. *)
Definition append_row (names : gmap Z string) (rows : list (list string)) (b : Box)
  : list (list string) :=
  let cls_id := cls b in
  let conf := conf b in
  let label := default (Py.str cls_id) (names !! cls_id) in
  rows ++ [[label; Py.format_f 1 (conf * 100)%float +:+ "%"]].

Definition detection_rows (r : Results) : list (list string) :=
  let rows := [] in
  match boxes r with
  | Some bs =>
      if (0 <? length bs)%nat
      then fold_left (append_row (names r)) bs rows
      else rows ++ [["None"; "—"]]
  | None => rows ++ [["None"; "—"]]
  end.

Definition _run_detection (app : App) (image : option ndarray) : M Outputs :=
  match image with
  | None => mret (0, None, [], "Please upload an image first.", None)
  | Some image =>
      _ ← progress 0.05 "Initializing…";
      start ← time_time;
      _ ← for_ checkpoints (fun '(p, msg) => _ ← time_sleep 0.2; progress p msg);
      results ← lift (model app image);
      let annotated := plot results in
      let rows := detection_rows results in
      now ← time_time;
      let elapsed := (now - start)%float in
      let meta :=
        MODEL_MODE app +:+ nl +:+
        "Processed in " +:+ Py.format_f 2 elapsed +:+ "s" +:+ nl +:+
        "Privacy: Uploads are processed on demand and not stored permanently." in
      now' ← time_time;
      stamp ← lift (Py.int now');
      let out_path := OUTPUTS // ("guardian_result_" +:+ Py.str stamp +:+ ".png") in
      _ ← save out_path annotated;
      _ ← progress 1.0 "Done ✅";
      mret (1, Some annotated, rows, meta, Some out_path)
  end.

Definition reset_all
  : option ndarray * option ndarray * list (list string) * string * option string * Z * string :=
  (None, None, [], "", None, 0, "upload").

(** ** The page *)

(** The components of the page that a listener reads or writes; [tabs]
    holds the id of the selected tab. *)
Record UI := {
  tabs : string;
  prog : Z;
  inp : option ndarray;
  out_img : option ndarray;
  detections : list (list string);
  meta : string;
  download : option string;
  page : string;
  progress_value : Z
}.

(** The page as [gr.Blocks] builds it. *)
Definition initial_ui : UI :=
  {| tabs := "upload"; prog := 0; inp := None; out_img := None; detections := [];
     meta := ""; download := None; page := "upload"; progress_value := 0 |}.

Definition go_processing : string * Z := ("processing", 0).
Definition go_results : string := "results".
Definition go_upload : string := "upload".

(** An event listener: [fn] applied to the values of its [inputs], its
    result written to its [outputs]. *)
Definition Listener : Type := UI -> M UI.

Definition set_tabs (t : string) (u : UI) : UI :=
  {| tabs := t; prog := prog u; inp := inp u; out_img := out_img u;
     detections := detections u; meta := meta u; download := download u;
     page := page u; progress_value := progress_value u |}.

Definition set_prog (p : Z) (u : UI) : UI :=
  {| tabs := tabs u; prog := p; inp := inp u; out_img := out_img u;
     detections := detections u; meta := meta u; download := download u;
     page := page u; progress_value := progress_value u |}.

(** [detect_btn.click(fn=go_processing, inputs=None, outputs=[tabs, prog])] *)
Definition on_go_processing : Listener := fun u =>
  let '(t, p) := go_processing in mret (set_prog p (set_tabs t u)).

(** [detect_btn.click(fn=_run_detection, inputs=inp,
      outputs=[prog, out_img, detections, meta, download])] *)
Definition on_run_detection (app : App) : Listener := fun u =>
  '(p, img, rows, m, d) ← _run_detection app (inp u);
  mret {| tabs := tabs u; prog := p; inp := inp u; out_img := img;
          detections := rows; meta := m; download := d;
          page := page u; progress_value := progress_value u |}.

(** [detect_btn.click(fn=go_results, inputs=None, outputs=tabs)] *)
Definition on_go_results : Listener := fun u => mret (set_tabs go_results u).

(** [new_btn.click(fn=reset_all, inputs=None,
      outputs=[inp, out_img, detections, meta, download, prog, page])] *)
Definition on_reset_all : Listener := fun u =>
  let '(i, img, rows, m, d, p, pg) := reset_all in
  mret {| tabs := tabs u; prog := p; inp := i; out_img := img;
          detections := rows; meta := m; download := d;
          page := pg; progress_value := progress_value u |}.

(** [new_btn.click(fn=go_upload, inputs=None, outputs=tabs)] *)
Definition on_go_upload : Listener := fun u => mret (set_tabs go_upload u).

(** The listeners of each button, in the order the code registers them. *)
Definition detect_btn_click (app : App) : list Listener :=
  [on_go_processing; on_run_detection app; on_go_results].

Definition new_btn_click : list Listener := [on_reset_all; on_go_upload].

(** One listener run to its end: its outputs are written when it
    returns, and left as they were when it raises. *)
Definition run_listener (l : Listener) (s : UI * World) : UI * World :=
  match l (fst s) (snd s) with
  | (inr u', w') => (u', w')
  | (inl _, w') => (fst s, w')
  end.

(** A click: every listener of the button runs; [ls] is the order in
    which they complete.  No listener of a button writes a component that
    another listener of the same button reads, so a listener may read its
    inputs when it runs rather than at the click. *)
Definition click (ls : list Listener) (s : UI * World) : UI * World :=
  fold_left (fun s l => run_listener l s) ls s.

End Guardian.

(** ** The course of one scan, spelled out *)

Section Course.

Variable ROOT : string.

Definition logs (evs : list Event) (w : World) : World :=
  fold_left (fun w ev => log ev w) evs w.

(** What the five passes of the [for p, msg in ...] loop do. *)
Definition loop_events : list Event :=
  flat_map (fun '(p, msg) => [Sleep 0.2; Progress p msg]) checkpoints.

(** The world when the detector is about to be called. *)
Definition before_inference (w : World) : World :=
  logs loop_events (tick (log (Progress 0.05 "Initializing…") w)).

(** The path a scan saves to when the clock reads [stamp] whole seconds. *)
Definition out_path (stamp : Z) : string :=
  OUTPUTS ROOT // ("guardian_result_" +:+ Py.str stamp +:+ ".png").

(** The world when a scan has returned. *)
Definition after_scan (stamp : Z) (annotated : ndarray) (w : World) : World :=
  log (Progress 1.0 "Done ✅")
    (write (out_path stamp) (Png annotated) (tick (tick (before_inference w)))).

(** The status text of a scan that began at [start] and ended at [now]. *)
Definition run_details (app : App) (start now : float) : string :=
  MODEL_MODE app +:+ nl +:+
  "Processed in " +:+ Py.format_f 2 (now - start)%float +:+ "s" +:+ nl +:+
  "Privacy: Uploads are processed on demand and not stored permanently.".


(** The table row of one detected object. *)
Definition row_of (names : gmap Z string) (b : Box) : list string :=
  [ match names !! cls b with Some label => label | None => Py.str (cls b) end;
    Py.format_f 1 (conf b * 100)%float +:+ "%" ].

(** [time.time()] returns a number, never nan or an infinity. *)
Definition clock_ok (w : World) : Prop :=
  forall n, is_finite (time_source w n) = true.


End Course.




(** The texts the page shows. *)
Definition no_image_message : string := "Please upload an image first.".

Definition local_mode : string := "✅ Using local model: weights/best.pt".
Definition demo_mode : string :=
  "⚠️ Demo mode: weights/best.pt not found. Falling back to yolov8n.pt".


(** ** Sessions *)

(** The user puts an image into the upload input, or clears it. *)
Definition set_inp (i : option ndarray) (u : UI) : UI :=
  {| tabs := tabs u; prog := prog u; inp := i; out_img := out_img u;
     detections := detections u; meta := meta u; download := download u;
     page := page u; progress_value := progress_value u |}.

Section Session.

Variable ROOT : string.
Variable app : App.

(** One thing that happens to the page: the user changes the upload
    input, or clicks one of the two buttons and the listeners of the
    button complete in some order. *)
Inductive step : UI * World -> UI * World -> Prop :=
| step_input i u w : step (u, w) (set_inp i u, w)
| step_detect ls s : Permutation ls (detect_btn_click ROOT app) -> step s (click ls s)
| step_new ls s : Permutation ls new_btn_click -> step s (click ls s).

(** The states of a session that starts on the fresh page in world [w0]. *)
Definition reachable (w0 : World) (s : UI * World) : Prop :=
  rtc step (initial_ui, w0) s.

End Session.

(** What every page of a session satisfies. *)
Definition page_ok (u : UI) : Prop :=
  page u = "upload" /\ progress_value u = 0 /\
  (prog u = 0 \/ prog u = 1) /\
  (tabs u = "upload" \/ tabs u = "processing" \/ tabs u = "results").

(** The download link names a file that holds the annotated image shown. *)
Definition link_ok (s : UI * World) : Prop :=
  forall p, download (fst s) = Some p ->
    exists a, out_img (fst s) = Some a /\ files (snd s) !! p = Some (Png a).

(** No file of [w0] is missing from [w], and the directories are the same. *)
Definition keeps_files (w0 w : World) : Prop :=
  (forall p, is_Some (files w0 !! p) -> is_Some (files w !! p)) /\ dirs w = dirs w0.

(** What holds of every state of a session that began in world [w0]. *)
Definition session_inv (w0 : World) (s : UI * World) : Prop :=
  page_ok (fst s) /\ link_ok s /\ keeps_files w0 (snd s).

(** Whether the weights file is there when the program starts. *)
Definition weights_found (root : string) (w : World) : bool :=
  bool_decide (is_Some (files w !! WEIGHTS root) \/ WEIGHTS root ∈ dirs w).

(** The mode the program records for a world. *)
Definition startup_mode (root : string) (w : World) : string :=
  if weights_found root w then local_mode else demo_mode.


(** ** Concrete inputs *)

Definition root0 : string := "/srv/guardian".

Definition image0 : ndarray := NDArray [1; 2; 3]%nat [12; 40; 7; 255; 0; 31].
Definition annotated0 : ndarray := NDArray [1; 2; 3]%nat [212; 175; 55; 255; 0; 31].
Definition old_pixels : ndarray := NDArray [1; 1; 3]%nat [9; 9; 9].

(** The scenario of two detected objects. *)
Definition knife_gun : Results :=
  {| plot := annotated0;
     names := {[ 0 := "knife"; 1 := "gun" ]};
     boxes := Some [ {| cls := 0; conf := 0.91 |}; {| cls := 1; conf := 0.77 |} ] |}.

(** A detector that finds nothing. *)
Definition nothing_found : Results :=
  {| plot := image0; names := {[ 0 := "knife"; 1 := "gun" ]}; boxes := Some [] |}.

(** An object of a class the label table does not list. *)
Definition unlisted : Results :=
  {| plot := annotated0;
     names := {[ 0 := "knife" ]};
     boxes := Some [ {| cls := 0; conf := 0.5 |}; {| cls := 7; conf := 0.873 |} ] |}.

Definition app0 : App := {| model := fun _ => inr knife_gun; MODEL_MODE := local_mode |}.
Definition app_empty : App := {| model := fun _ => inr nothing_found; MODEL_MODE := demo_mode |}.
Definition faulty_app : App :=
  {| model := fun _ => inl (Py.RuntimeError "inference failed"); MODEL_MODE := demo_mode |}.

(** A clock that reads 1700000000.25 s at the start of a scan and
    1700000001.5 s afterwards. *)
Definition clock0 (n : nat) : float :=
  match n with
  | O => 1700000000.25
  | _ => 1700000001.5
  end.

Definition world0 : World :=
  {| files := ∅; dirs := {[ OUTPUTS root0 ]}; time_source := clock0;
     time_calls := 0; trace := [] |}.

(** The same, with a result file of the second 1700000001 already in the
    output directory: left by another instance of the application that
    shares the directory, or by a scan made before the clock was set back. *)
Definition world_prior : World :=
  {| files := {[ out_path root0 1700000001 := Png old_pixels ]};
     dirs := {[ OUTPUTS root0 ]}; time_source := clock0;
     time_calls := 0; trace := [] |}.

(** A page that shows the results of a former scan. *)
Definition ui_shown : UI :=
  {| tabs := "results"; prog := 1; inp := None; out_img := Some annotated0;
     detections := [["knife"; "91.0%"]]; meta := "Processed in 1.25s";
     download := Some (out_path root0 1700000001); page := "upload";
     progress_value := 0 |}.

(** The fresh page with an image in the upload input. *)
Definition ui_ready : UI := set_inp (Some image0) initial_ui.

(** A detector that draws nothing and finds nothing: the rendering is
    the image it was given. *)
Definition app_echo : App :=
  {| model := fun img => inr {| plot := img; names := ∅; boxes := None |};
     MODEL_MODE := demo_mode |}.

(** A loader that has the local weights and the public ones, and fails
    on any other path. *)
Definition yolo0 (path : string) : Py.exn + Detector :=
  if bool_decide (path = "yolov8n.pt" \/ path = WEIGHTS root0)
  then inr (fun _ => inr knife_gun)
  else inl (Py.RuntimeError "no such weights").

(** A world with the weights file in place and no output directory yet. *)
Definition world_weights : World :=
  {| files := {[ WEIGHTS root0 := Blob [80; 75; 3; 4] ]}; dirs := ∅;
     time_source := clock0; time_calls := 0; trace := [] |}.

(** A session in the world that already holds a result file: an image is
    uploaded, then the detect button is clicked and its listeners complete
    in the order of their registration. *)
Definition session0 : UI * World :=
  click (detect_btn_click root0 app0) (ui_ready, world_prior).

(** * Properties *)

Section MonadSteps.

Context {A B : Type}.

Lemma bind_emit (ev : Event) (k : unit -> M B) w : (emit ev ≫= k) w = k tt (log ev w).
Proof. reflexivity. Qed.

Lemma bind_time (k : float -> M B) w :
  (time_time ≫= k) w = k (time_source w (time_calls w)) (tick w).
Proof. reflexivity. Qed.

Lemma bind_lift (r : Py.exn + A) (k : A -> M B) w :
  (lift r ≫= k) w = match r with inr a => k a w | inl e => (inl e, w) end.
Proof. destruct r; reflexivity. Qed.

Lemma bind_save path a (k : unit -> M B) w :
  (save path a ≫= k) w = k tt (write path (Png a) w).
Proof. reflexivity. Qed.

Lemma bind_ret (a : A) (k : A -> M B) w : (mret a ≫= k) w = k a w.
Proof. reflexivity. Qed.

Lemma bind_bind {C} (m : M A) (f : A -> M B) (g : B -> M C) w :
  ((m ≫= f) ≫= g) w = (m ≫= fun a => f a ≫= g) w.
Proof.
  unfold mbind, M_bind. destruct (m w) as [[e|a] w']; [reflexivity|].
  destruct (f a w') as [[e|b] w'']; reflexivity.
Qed.

End MonadSteps.

Ltac step_M :=
  repeat first
    [ rewrite bind_bind | rewrite bind_emit | rewrite bind_time
    | rewrite bind_save | rewrite bind_ret ].

Section WorldFacts.


Lemma files_logs evs w : files (logs evs w) = files w.
Proof. revert w. induction evs as [|ev evs IH]; intros w; simpl; [done|by rewrite IH]. Qed.

Lemma time_calls_logs evs w : time_calls (logs evs w) = time_calls w.
Proof. revert w. induction evs as [|ev evs IH]; intros w; simpl; [done|by rewrite IH]. Qed.

Lemma time_source_logs evs w : time_source (logs evs w) = time_source w.
Proof. revert w. induction evs as [|ev evs IH]; intros w; simpl; [done|by rewrite IH]. Qed.

Lemma progress_of_app t1 t2 :
  progress_of (t1 ++ t2) = (progress_of t1 ++ progress_of t2)%list.
Proof. unfold progress_of. apply omap_app. Qed.

(** [int] of a finite float returns. *)
Lemma int_finite x : is_finite x = true -> exists z, Py.int x = inr z.
Proof.
  unfold is_finite, Py.int, Prim2SF. intros Hfin.
  destruct (is_nan x); [discriminate|].
  destruct (is_zero x); [by eexists|].
  destruct (is_infinity x); [discriminate|].
  destruct (Z.frexp x) as [r ex].
  destruct (shr_fexp _ _ _ _ _) as [sh e'].
  destruct (shr_m sh); by eexists.
Qed.

End WorldFacts.

Section Run.

Variable ROOT : string.

(** The whole course of [_run_detection] on an image: the detector may
    fault after the first six progress updates, [int] may raise on the
    clock reading, and otherwise the scan returns. *)
Lemma run_detection_course app img w :
  _run_detection ROOT app (Some img) w =
  match model app img with
  | inl e => (inl e, before_inference w)
  | inr r =>
      match Py.int (time_source w (2 + time_calls w)%nat) with
      | inl e => (inl e, tick (tick (before_inference w)))
      | inr stamp =>
          (inr (1, Some (plot r), detection_rows r,
                run_details app (time_source w (time_calls w))
                  (time_source w (1 + time_calls w)%nat),
                Some (out_path ROOT stamp)),
           after_scan ROOT stamp (plot r) w)
      end
  end.
Proof.
  unfold _run_detection, checkpoints, for_, progress, time_sleep.
  step_M. rewrite bind_lift.
  change (log _ (log _ (log _ (log _ (log _ (log _ (log _ (log _ (log _ (log _ (tick _)))))))))))
    with (before_inference w).
  destruct (model app img) as [e|r]; [reflexivity|].
  step_M. rewrite bind_lift.
  unfold before_inference at 1 2. cbn [time_source time_calls tick].
  rewrite time_calls_logs, time_source_logs. cbn [time_source time_calls tick log].
  destruct (Py.int _) as [e|stamp]; reflexivity.
Qed.

(** A scan on an image returns when the detector does and the clock is sound. *)
Lemma run_detection_returns app img r w :
  model app img = inr r -> clock_ok w ->
  exists stamp,
    Py.int (time_source w (2 + time_calls w)%nat) = inr stamp /\
    _run_detection ROOT app (Some img) w =
      (inr (1, Some (plot r), detection_rows r,
            run_details app (time_source w (time_calls w))
              (time_source w (1 + time_calls w)%nat),
            Some (out_path ROOT stamp)),
       after_scan ROOT stamp (plot r) w).
Proof.
  intros Hm Hclock.
  destruct (int_finite _ (Hclock (2 + time_calls w)%nat)) as [stamp Hstamp].
  exists stamp. split; [exact Hstamp|].
  rewrite run_detection_course, Hm, Hstamp. reflexivity.
Qed.

Lemma files_before_inference w : files (before_inference w) = files w.
Proof. unfold before_inference. by rewrite files_logs. Qed.

Lemma files_after_scan stamp a w :
  files (after_scan ROOT stamp a w) = <[out_path ROOT stamp := Png a]> (files w).
Proof.
  unfold after_scan. cbn [files log write tick]. by rewrite files_before_inference.
Qed.

End Run.

Section Orders.

Context {A : Type}.

(** The orders in which two, and three, listeners can complete. *)
Lemma perm_two (a b : A) l :
  Permutation l [a; b] -> l = [a; b] \/ l = [b; a].
Proof. intros H. apply Permutation_length_2_inv. by symmetry. Qed.

Lemma perm_three (a b c : A) l :
  Permutation l [a; b; c] ->
  l = [a; b; c] \/ l = [a; c; b] \/ l = [b; a; c] \/
  l = [b; c; a] \/ l = [c; a; b] \/ l = [c; b; a].
Proof.
  intros H. symmetry in H.
  apply Permutation_cons_inv_l in H as (k1 & k2 & -> & H).
  apply Permutation_length_2_inv in H.
  destruct k1 as [|x [|y [|z k1]]]; simpl in H;
    destruct H as [H|H]; simplify_eq/=; auto 10.
  all: destruct k1; discriminate.
Qed.

End Orders.

Section Workflow.

Variable ROOT : string.

(** C10: called with no image, [_run_detection] returns exactly
    [(0, None, [], "Please upload an image first.", None)] and touches
    nothing else; written to its outputs, the tuple replaces the annotated
    image, the table, the status text and the download link a former scan
    left on the page. *)
Theorem run_detection_without_image (app : App) (u : UI) (w : World) :
  inp u = None ->
  _run_detection ROOT app (inp u) w = (inr (0, None, [], no_image_message, None), w) /\
  run_listener (on_run_detection ROOT app) (u, w) =
    ({| tabs := tabs u; prog := 0; inp := None; out_img := None; detections := [];
        meta := no_image_message; download := None;
        page := page u; progress_value := progress_value u |}, w).
Proof.
  intros Hinp. unfold run_listener, on_run_detection. simpl. rewrite Hinp. done.
Qed.

(** C1, as the code has it: on a detect click with no image the status
    text becomes "Please upload an image first.", the [page] state and the
    world are left as they were, and nothing is scanned; but the two tab
    listeners of the same click take no input and run all the same, so
    the selected tab ends on Processing or Results (on Results when the
    listeners complete in the order they were registered), not on Upload. *)
Theorem detect_click_without_image (app : App) (ls : list Listener) (u : UI) (w : World) :
  Permutation ls (detect_btn_click ROOT app) ->
  inp u = None ->
  let s := click ls (u, w) in
  meta (fst s) = no_image_message /\
  prog (fst s) = 0 /\
  out_img (fst s) = None /\ detections (fst s) = [] /\ download (fst s) = None /\
  inp (fst s) = None /\
  page (fst s) = page u /\
  snd s = w /\
  (tabs (fst s) = "processing" \/ tabs (fst s) = "results") /\
  tabs (fst s) <> "upload" /\
  tabs (fst (click (detect_btn_click ROOT app) (u, w))) = "results".
Proof.
  intros Hls Hinp. destruct u as [t p i o d m dl pg pv]. simpl in Hinp. subst i.
  apply perm_three in Hls as [-> | [-> | [-> | [-> | [-> | ->]]]]]; cbn;
    repeat split; auto; discriminate.
Qed.

(** C5: whatever the page shows, a click on "New Scan" leaves the Upload
    tab selected, the image input cleared, the annotated image cleared,
    the table empty, the status text empty, no download link and the
    progress at 0; the two listeners of the button may complete in either
    order, and the world is not touched. *)
Theorem new_scan_resets (ls : list Listener) (u : UI) (w : World) :
  Permutation ls new_btn_click ->
  click ls (u, w) =
    ({| tabs := "upload"; prog := 0; inp := None; out_img := None; detections := [];
        meta := ""; download := None; page := "upload";
        progress_value := progress_value u |}, w).
Proof.
  intros Hls. apply perm_two in Hls as [-> | ->]; reflexivity.
Qed.

End Workflow.

Section Strings.

Lemma length_append (s t : string) :
  String.length (s +:+ t) = (String.length s + String.length t)%nat.
Proof. induction s as [|c s IH]; simpl; [done|by rewrite IH]. Qed.

Lemma append_assoc (a b c : string) : (a +:+ b) +:+ c = a +:+ (b +:+ c).
Proof.
  induction a as [|x a IH]; [done|].
  change (String x ((a +:+ b) +:+ c) = String x (a +:+ (b +:+ c))). by rewrite IH.
Qed.

(** A common suffix cancels. *)
Lemma append_inv_tail (t s1 s2 : string) : s1 +:+ t = s2 +:+ t -> s1 = s2.
Proof.
  revert s2. induction s1 as [|c s1 IH]; intros [|c' s2] H.
  - done.
  - apply (f_equal String.length) in H. rewrite !length_append in H. simpl in H. lia.
  - apply (f_equal String.length) in H. rewrite !length_append in H. simpl in H. lia.
  - change (String c (s1 +:+ t) = String c' (s2 +:+ t)) in H.
    injection H as -> H. f_equal. by apply IH.
Qed.

(** Two scans save to the same path only when [int(time.time())] gave
    them the same whole number of seconds. *)
Lemma out_path_inj ROOT (z z' : Z) : out_path ROOT z = out_path ROOT z' -> z = z'.
Proof.
  unfold out_path, joinpath. intros H.
  do 3 apply (inj (String.append _)) in H.
  apply append_inv_tail in H. by apply (inj pretty) in H.
Qed.

End Strings.

Section Rows.

Lemma append_row_row_of names rows b :
  append_row names rows b = (rows ++ [row_of names b])%list.
Proof. unfold append_row, row_of. by destruct (names !! cls b). Qed.

(** The [for] loop appends one row per box, in the order of the boxes. *)
Lemma fold_append_row names bs rows :
  fold_left (append_row names) bs rows = (rows ++ map (row_of names) bs)%list.
Proof.
  revert rows. induction bs as [|b bs IH]; intros rows; simpl.
  - by rewrite app_nil_r.
  - rewrite IH, append_row_row_of, <- app_assoc. done.
Qed.

Lemma detection_rows_boxes r bs :
  boxes r = Some bs -> bs <> [] -> detection_rows r = map (row_of (names r)) bs.
Proof.
  intros Hb Hne. unfold detection_rows. rewrite Hb.
  destruct bs as [|b bs]; [done|]. simpl length. cbn [Nat.ltb Nat.leb].
  apply fold_append_row.
Qed.

Lemma detection_rows_none r :
  boxes r = None \/ boxes r = Some [] -> detection_rows r = [["None"; "—"]].
Proof. intros [Hb|Hb]; unfold detection_rows; by rewrite Hb. Qed.

Lemma detection_rows_length r : (1 <= length (detection_rows r))%nat.
Proof.
  destruct (boxes r) as [[|b bs]|] eqn:Hb.
  - rewrite detection_rows_none by auto. simpl. lia.
  - rewrite (detection_rows_boxes r (b :: bs)) by done. simpl. lia.
  - rewrite detection_rows_none by auto. simpl. lia.
Qed.

End Rows.

Section Binary64.










End Binary64.

Section Decimal.









End Decimal.

Section Confidence.




End Confidence.

Section Scan.

Variable ROOT : string.

(** C3: when an image was supplied and the detector returned (and the
    clock reads a number, so that the file name can be formed), the scan
    returns a table with at least one row; it is the single row
    ["None", "—"] when the detector found no object (no boxes, or an empty
    list of boxes), and has one row per box otherwise. *)
Theorem detections_never_empty (app : App) (img : ndarray) (r : Results) (w : World) :
  model app img = inr r -> clock_ok w ->
  exists a rows m d w',
    _run_detection ROOT app (Some img) w = (inr (1, a, rows, m, d), w') /\
    (1 <= length rows)%nat /\
    (boxes r = None \/ boxes r = Some [] -> rows = [["None"; "—"]]) /\
    (forall bs, boxes r = Some bs -> bs <> [] -> length rows = length bs).
Proof.
  intros Hm Hclock.
  destruct (run_detection_returns ROOT app img r w Hm Hclock) as (stamp & _ & Hrun).
  do 5 eexists. split; [exact Hrun|]. split; [apply detection_rows_length|].
  split; [apply detection_rows_none|].
  intros bs Hb Hne. rewrite (detection_rows_boxes r bs Hb Hne). apply length_map.
Qed.

(** C7: the table of a scan has the rows of the detector's boxes in the
    detector's order: row [i] is the row of box [i].  When the detector
    reports two objects, the first labelled "knife" with confidence 0.91
    and the second labelled "gun" with confidence 0.77 (as doubles, or as
    the single-precision values a tensor holds), the table is exactly
    [["knife", "91.0%"], ["gun", "77.0%"]]. *)
Theorem rows_follow_model_order (app : App) (img : ndarray) (r : Results)
    (bs : list Box) (w : World) :
  model app img = inr r -> clock_ok w -> boxes r = Some bs -> bs <> [] ->
  exists a rows m d w',
    _run_detection ROOT app (Some img) w = (inr (1, a, rows, m, d), w') /\
    rows = map (row_of (names r)) bs /\
    (forall i b, bs !! i = Some b -> rows !! i = Some (row_of (names r) b)) /\
    (forall c1 c2 p1 p2,
       bs = [ {| cls := c1; conf := p1 |}; {| cls := c2; conf := p2 |} ] ->
       names r !! c1 = Some "knife" -> names r !! c2 = Some "gun" ->
       (p1 = 0.91 \/ p1 = 0.9100000262260437)%float ->
       (p2 = 0.77 \/ p2 = 0.7699999809265137)%float ->
       rows = [["knife"; "91.0%"]; ["gun"; "77.0%"]]).
Proof.
  intros Hm Hclock Hb Hne.
  destruct (run_detection_returns ROOT app img r w Hm Hclock) as (stamp & _ & Hrun).
  do 5 eexists. split; [exact Hrun|].
  rewrite (detection_rows_boxes r bs Hb Hne).
  split; [done|]. split.
  - intros i b Hi. by rewrite list_lookup_fmap, Hi.
  - intros c1 c2 p1 p2 -> H1 H2 Hp1 Hp2. unfold row_of. cbn [map cls conf].
    rewrite H1, H2.
    destruct Hp1 as [-> | ->], Hp2 as [-> | ->]; vm_compute; reflexivity.
Qed.



End Scan.

Section Progress.

Variable ROOT : string.



End Progress.

Section OutputFiles.

Variable ROOT : string.

(** C2, as the code has it: a completed scan writes exactly one file, the
    annotated image, at [OUTPUTS/guardian_result_<stamp>.png], where
    [stamp] is the clock reading at save time cut to whole seconds; every
    other file is left as it was.  The name is a function of [stamp] alone,
    and different stamps give different names.  When no file has that name
    the directory gains one file and no file is replaced; the code does
    not look whether one exists. *)
Theorem scan_writes_one_file (app : App) (img : ndarray) (r : Results) (w : World) :
  model app img = inr r -> clock_ok w ->
  exists stamp a rows m w',
    Py.int (time_source w (2 + time_calls w)%nat) = inr stamp /\
    _run_detection ROOT app (Some img) w =
      (inr (1, a, rows, m, Some (out_path ROOT stamp)), w') /\
    files w' = <[out_path ROOT stamp := Png (plot r)]> (files w) /\
    (forall p, p <> out_path ROOT stamp -> files w' !! p = files w !! p) /\
    (forall stamp', out_path ROOT stamp' = out_path ROOT stamp -> stamp' = stamp) /\
    (files w !! out_path ROOT stamp = None ->
       size (files w') = S (size (files w)) /\
       forall p f, files w !! p = Some f -> files w' !! p = Some f).
Proof.
  intros Hm Hclock.
  destruct (run_detection_returns ROOT app img r w Hm Hclock) as (stamp & Hstamp & Hrun).
  exists stamp. do 4 eexists. split; [exact Hstamp|]. split; [exact Hrun|].
  rewrite files_after_scan.
  split; [done|]. split; [|split].
  - intros p Hp. by rewrite lookup_insert_ne.
  - intros stamp'. apply out_path_inj.
  - intros Hfresh. split; [by apply map_size_insert_None|].
    intros p f Hp. rewrite lookup_insert_ne; [done|]. congruence.
Qed.

End OutputFiles.

Section Loader.

Variable ROOT : string.
Variable YOLO : string -> Py.exn + Detector.

(** C9: [load_model] looks whether [ROOT/weights/best.pt] exists.  If it
    does, the model is the one [YOLO] loads from that path and the status
    is the "Using local model" text; if not, the model is the one [YOLO]
    loads from "yolov8n.pt" and the status is the "Demo mode ... not
    found" text.  Nothing else is read or changed, and a failure of
    [YOLO] escapes as it is. *)
Theorem load_model_chooses_weights (w : World) :
  WEIGHTS ROOT = ROOT +:+ "/weights/best.pt" /\
  load_model ROOT YOLO w =
    (if bool_decide (is_Some (files w !! WEIGHTS ROOT) \/ WEIGHTS ROOT ∈ dirs w)
     then match YOLO (WEIGHTS ROOT) with
          | inr m => inr (m, local_mode)
          | inl e => inl e
          end
     else match YOLO "yolov8n.pt" with
          | inr m => inr (m, demo_mode)
          | inl e => inl e
          end, w).
Proof.
  split.
  - unfold WEIGHTS, joinpath. by rewrite append_assoc.
  - unfold load_model, exists_. unfold mbind at 1, M_bind at 1.
    destruct (bool_decide _); rewrite bind_lift; by destruct (YOLO _).
Qed.

End Loader.

(** * Concrete runs *)

Lemma clock0_ok files0 dirs0 calls0 trace0 :
  clock_ok {| files := files0; dirs := dirs0; time_source := clock0;
              time_calls := calls0; trace := trace0 |}.
Proof. intros [|n]; reflexivity. Qed.

Lemma run_detection_without_image_witness :
  _run_detection root0 app0 (inp ui_shown) world0 =
    (inr (0, None, [], no_image_message, None), world0) /\
  run_listener (on_run_detection root0 app0) (ui_shown, world0) =
    ({| tabs := "results"; prog := 0; inp := None; out_img := None; detections := [];
        meta := no_image_message; download := None;
        page := "upload"; progress_value := 0 |}, world0).
Proof. apply (run_detection_without_image root0 app0 ui_shown world0). reflexivity. Defined.

(** C1 as stated fails: on the fresh page, with no image, a detect click
    reports the message and leaves the Results tab selected. *)
Lemma detect_click_without_image_leaves_upload :
  inp initial_ui = None /\
  tabs initial_ui = "upload" /\
  meta (fst (click (detect_btn_click root0 app0) (initial_ui, world0))) = no_image_message /\
  tabs (fst (click (detect_btn_click root0 app0) (initial_ui, world0))) = "results" /\
  tabs (fst (click (detect_btn_click root0 app0) (initial_ui, world0))) <> "upload".
Proof. repeat split; discriminate. Qed.

Lemma detect_click_without_image_witness :
  let s := click [on_go_results; on_run_detection root0 app0; on_go_processing]
             (initial_ui, world0) in
  meta (fst s) = no_image_message /\
  prog (fst s) = 0 /\
  out_img (fst s) = None /\ detections (fst s) = [] /\ download (fst s) = None /\
  inp (fst s) = None /\
  page (fst s) = page initial_ui /\
  snd s = world0 /\
  (tabs (fst s) = "processing" \/ tabs (fst s) = "results") /\
  tabs (fst s) <> "upload" /\
  tabs (fst (click (detect_btn_click root0 app0) (initial_ui, world0))) = "results".
Proof.
  apply (detect_click_without_image root0 app0
           [on_go_results; on_run_detection root0 app0; on_go_processing]
           initial_ui world0).
  - unfold detect_btn_click. apply Permutation_rev.
  - reflexivity.
Defined.

Lemma new_scan_resets_witness :
  click [on_go_upload; on_reset_all] (ui_shown, world0) =
    ({| tabs := "upload"; prog := 0; inp := None; out_img := None; detections := [];
        meta := ""; download := None; page := "upload"; progress_value := 0 |}, world0).
Proof.
  apply (new_scan_resets [on_go_upload; on_reset_all] ui_shown world0).
  unfold new_btn_click. apply perm_swap.
Defined.

Lemma detections_never_empty_witness :
  exists a rows m d w',
    _run_detection root0 app_empty (Some image0) world0 = (inr (1, a, rows, m, d), w') /\
    (1 <= length rows)%nat /\
    (boxes nothing_found = None \/ boxes nothing_found = Some [] -> rows = [["None"; "—"]]) /\
    (forall bs, boxes nothing_found = Some bs -> bs <> [] -> length rows = length bs).
Proof.
  apply (detections_never_empty root0 app_empty image0 nothing_found world0).
  - reflexivity.
  - apply clock0_ok.
Defined.

Lemma rows_follow_model_order_witness :
  exists a rows m d w',
    _run_detection root0 app0 (Some image0) world0 = (inr (1, a, rows, m, d), w') /\
    rows = map (row_of (names knife_gun))
             [ {| cls := 0; conf := 0.91 |}; {| cls := 1; conf := 0.77 |} ] /\
    (forall i b,
       [ {| cls := 0; conf := 0.91 |}; {| cls := 1; conf := 0.77 |} ] !! i = Some b ->
       rows !! i = Some (row_of (names knife_gun) b)) /\
    (forall c1 c2 p1 p2,
       [ {| cls := 0; conf := 0.91 |}; {| cls := 1; conf := 0.77 |} ] =
       [ {| cls := c1; conf := p1 |}; {| cls := c2; conf := p2 |} ] ->
       names knife_gun !! c1 = Some "knife" -> names knife_gun !! c2 = Some "gun" ->
       (p1 = 0.91 \/ p1 = 0.9100000262260437)%float ->
       (p2 = 0.77 \/ p2 = 0.7699999809265137)%float ->
       rows = [["knife"; "91.0%"]; ["gun"; "77.0%"]]).
Proof.
  apply (rows_follow_model_order root0 app0 image0 knife_gun
           [ {| cls := 0; conf := 0.91 |}; {| cls := 1; conf := 0.77 |} ] world0).
  - reflexivity.
  - apply clock0_ok.
  - reflexivity.
  - discriminate.
Defined.


(** The table of the unlisted-class scan, computed. *)
Example unlisted_rows :
  detection_rows unlisted = [["knife"; "50.0%"]; ["7"; "87.3%"]].
Proof. vm_compute. reflexivity. Qed.


Lemma scan_writes_one_file_witness :
  exists stamp a rows m w',
    Py.int (time_source world0 (2 + time_calls world0)%nat) = inr stamp /\
    _run_detection root0 app0 (Some image0) world0 =
      (inr (1, a, rows, m, Some (out_path root0 stamp)), w') /\
    files w' = <[out_path root0 stamp := Png (plot knife_gun)]> (files world0) /\
    (forall p, p <> out_path root0 stamp -> files w' !! p = files world0 !! p) /\
    (forall stamp', out_path root0 stamp' = out_path root0 stamp -> stamp' = stamp) /\
    (files world0 !! out_path root0 stamp = None ->
       size (files w') = S (size (files world0)) /\
       forall p f, files world0 !! p = Some f -> files w' !! p = Some f).
Proof.
  apply (scan_writes_one_file root0 app0 image0 knife_gun world0).
  - reflexivity.
  - apply clock0_ok.
Defined.

(** C2 as stated fails: a scan saved in the second 1700000001 replaces
    the result file of that second that the directory already holds; no
    new file appears and the former result is lost. *)
Lemma scan_overwrites_same_second :
  files world_prior !! out_path root0 1700000001 = Some (Png old_pixels) /\
  fst (_run_detection root0 app0 (Some image0) world_prior) =
    inr (1, Some annotated0, [["knife"; "91.0%"]; ["gun"; "77.0%"]],
         run_details app0 1700000000.25 1700000001.5,
         Some (out_path root0 1700000001)) /\
  files (snd (_run_detection root0 app0 (Some image0) world_prior)) !!
    out_path root0 1700000001 = Some (Png annotated0) /\
  Png annotated0 <> Png old_pixels /\
  size (files (snd (_run_detection root0 app0 (Some image0) world_prior))) =
    size (files world_prior).
Proof.
  rewrite run_detection_course. cbn [model app0].
  replace (Py.int _) with (@inr Py.exn Z 1700000001) by (vm_compute; reflexivity).
  cbn [fst snd]. rewrite files_after_scan. cbn [files world_prior plot knife_gun].
  split; [apply lookup_singleton_eq|].
  split; [vm_compute; reflexivity|].
  split; [apply lookup_insert_eq|].
  split; [discriminate|].
  by rewrite insert_singleton_eq, !map_size_singleton.
Qed.


(** Confidences in [0, 1] and their strings, computed. *)
Example confidence_examples :
  map (fun c => (((0 <=? c) && (c <=? 1))%float, Py.format_f 1 (c * 100)%float +:+ "%"))
    [0.873; 0.91; 0.77; 0; 1; 0.0004; 0.9996; 0.125; -0.0]%float =
  [ (true, "87.3%"); (true, "91.0%"); (true, "77.0%"); (true, "0.0%"); (true, "100.0%");
    (true, "0.0%"); (true, "100.0%"); (true, "12.5%"); (true, "-0.0%") ].
Proof. vm_compute. reflexivity. Qed.

(** The float formatting and truncation of the model, on the values the
    interpreter is known to print. *)
Example format_f_one_decimal :
  map (Py.format_f 1) [0.25; 0.35; 0.75; 2.5; 0.05; -0.0; 1e22]%float =
  ["0.2"; "0.3"; "0.8"; "2.5"; "0.1"; "-0.0"; "10000000000000000000000.0"].
Proof. vm_compute. reflexivity. Qed.

Example format_f_two_decimals :
  map (Py.format_f 2) [1.005; 2.675; 0.125; 1.2345; 100; 0.004; 1.25]%float =
  ["1.00"; "2.67"; "0.12"; "1.23"; "100.00"; "0.00"; "1.25"].
Proof. vm_compute. reflexivity. Qed.

Example str_decimal : map Py.str [7; 0; 120; -3] = ["7"; "0"; "120"; "-3"].
Proof. vm_compute. reflexivity. Qed.

Example int_truncates :
  map Py.int [1700000000.9; -2.7; 0.5; 3; nan; infinity]%float =
  [inr 1700000000; inr (-2); inr 0; inr 3; inl Py.ValueError; inl Py.OverflowError].
Proof. vm_compute. reflexivity. Qed.

(** * More of the workflow *)

Section Listeners.

Variable ROOT : string.

Lemma dirs_logs evs w : dirs (logs evs w) = dirs w.
Proof. revert w. induction evs as [|ev evs IH]; intros w; simpl; [done|by rewrite IH]. Qed.

Lemma dirs_before_inference w : dirs (before_inference w) = dirs w.
Proof. unfold before_inference. by rewrite dirs_logs. Qed.

Lemma files_tick w : files (tick w) = files w.
Proof. reflexivity. Qed.

Lemma dirs_tick w : dirs (tick w) = dirs w.
Proof. reflexivity. Qed.

Lemma dirs_log ev w : dirs (log ev w) = dirs w.
Proof. reflexivity. Qed.

Lemma dirs_write p f w : dirs (write p f w) = dirs w.
Proof. reflexivity. Qed.

Lemma dirs_after_scan stamp a w : dirs (after_scan ROOT stamp a w) = dirs w.
Proof.
  unfold after_scan. by rewrite dirs_log, dirs_write, !dirs_tick, dirs_before_inference.
Qed.

Lemma time_calls_before_inference w :
  time_calls (before_inference w) = S (time_calls w).
Proof. unfold before_inference. by rewrite time_calls_logs. Qed.

Lemma run_on_go_processing u w :
  run_listener on_go_processing (u, w) = (set_prog 0 (set_tabs "processing" u), w).
Proof. reflexivity. Qed.

Lemma run_on_go_results u w :
  run_listener on_go_results (u, w) = (set_tabs "results" u, w).
Proof. reflexivity. Qed.

Lemma run_on_go_upload u w :
  run_listener on_go_upload (u, w) = (set_tabs "upload" u, w).
Proof. reflexivity. Qed.

Lemma run_on_reset_all u w :
  run_listener on_reset_all (u, w) =
    ({| tabs := tabs u; prog := 0; inp := None; out_img := None; detections := [];
        meta := ""; download := None; page := "upload";
        progress_value := progress_value u |}, w).
Proof. reflexivity. Qed.

Lemma run_on_detection_none app u w :
  inp u = None ->
  run_listener (on_run_detection ROOT app) (u, w) =
    ({| tabs := tabs u; prog := 0; inp := inp u; out_img := None; detections := [];
        meta := no_image_message; download := None;
        page := page u; progress_value := progress_value u |}, w).
Proof.
  intros Hinp. unfold run_listener, on_run_detection. cbn [fst snd]. rewrite Hinp. reflexivity.
Qed.

(** What the scan listener does to the page and the world when there is
    an image: nothing to the page when the scan raises. *)
Lemma run_on_detection_course app u img w :
  inp u = Some img ->
  run_listener (on_run_detection ROOT app) (u, w) =
  match model app img with
  | inl _ => (u, before_inference w)
  | inr r =>
      match Py.int (time_source w (2 + time_calls w)%nat) with
      | inl _ => (u, tick (tick (before_inference w)))
      | inr stamp =>
          ({| tabs := tabs u; prog := 1; inp := inp u; out_img := Some (plot r);
              detections := detection_rows r;
              meta := run_details app (time_source w (time_calls w))
                        (time_source w (1 + time_calls w)%nat);
              download := Some (out_path ROOT stamp);
              page := page u; progress_value := progress_value u |},
           after_scan ROOT stamp (plot r) w)
      end
  end.
Proof.
  intros Hinp. unfold run_listener, on_run_detection. cbn [fst snd]. rewrite Hinp.
  unfold mbind at 1, M_bind at 1. rewrite run_detection_course.
  destruct (model app img) as [e|r]; [reflexivity|].
  destruct (Py.int _) as [e|stamp]; reflexivity.
Qed.

End Listeners.

Ltac run_listeners ROOT app img :=
  unfold click; cbn [fold_left];
  repeat first
    [ rewrite run_on_go_processing | rewrite run_on_go_results
    | rewrite run_on_go_upload | rewrite run_on_reset_all
    | rewrite (run_on_detection_course ROOT app _ img) by reflexivity
    | match goal with H : model app img = _ |- _ => rewrite H end
    | match goal with H : Py.int _ = _ |- _ => rewrite H end ].

Section Clicks.

Variable ROOT : string.

Lemma files_out_path_after_scan stamp a w :
  files (after_scan ROOT stamp a w) !! out_path ROOT stamp = Some (Png a).
Proof. rewrite files_after_scan. apply lookup_insert_eq. Qed.

(** X1: a detect click with an image, when the detector returns: in every
    order in which the three listeners complete, the page ends with the
    annotated image, the table, the status text and the download link of
    this scan, the upload input untouched, and the file on disk under the
    path of the link. *)
Theorem detect_click_shows_results (app : App) (ls : list Listener) (u : UI)
    (img : ndarray) (r : Results) (w : World) :
  Permutation ls (detect_btn_click ROOT app) ->
  inp u = Some img -> model app img = inr r -> clock_ok w ->
  exists stamp,
    Py.int (time_source w (2 + time_calls w)%nat) = inr stamp /\
    let s := click ls (u, w) in
    out_img (fst s) = Some (plot r) /\
    detections (fst s) = detection_rows r /\
    meta (fst s) = run_details app (time_source w (time_calls w))
                     (time_source w (1 + time_calls w)%nat) /\
    download (fst s) = Some (out_path ROOT stamp) /\
    inp (fst s) = Some img /\
    page (fst s) = page u /\
    snd s = after_scan ROOT stamp (plot r) w /\
    files (snd s) !! out_path ROOT stamp = Some (Png (plot r)) /\
    (tabs (fst s) = "processing" \/ tabs (fst s) = "results") /\
    (prog (fst s) = 0 \/ prog (fst s) = 1).
Proof.
  intros Hls Hinp Hm Hclock.
  destruct (int_finite _ (Hclock (2 + time_calls w)%nat)) as [stamp Hstamp].
  exists stamp. split; [exact Hstamp|].
  destruct u as [t p i o d m dl pg pv]. cbn [inp] in Hinp. subst i.
  apply perm_three in Hls as [-> | [-> | [-> | [-> | [-> | ->]]]]];
    run_listeners ROOT app img; cbn [fst snd];
    rewrite files_out_path_after_scan; cbn; repeat split; auto.
Qed.

(** X2: the tab and the progress value a detect click ends with depend on
    the order in which its listeners complete: Results is selected only
    when [go_results] completes after [go_processing], and the progress
    is 1 only when the scan completes after [go_processing]. *)
Theorem detect_click_order_matters (app : App) (u : UI)
    (img : ndarray) (r : Results) (stamp : Z) (w : World) :
  inp u = Some img -> model app img = inr r ->
  Py.int (time_source w (2 + time_calls w)%nat) = inr stamp ->
  let gp := on_go_processing in
  let scan := on_run_detection ROOT app in
  let gr := on_go_results in
  map (fun ls => (tabs (fst (click ls (u, w))), prog (fst (click ls (u, w)))))
    [ [gp; scan; gr]; [gp; gr; scan]; [gr; gp; scan];
      [scan; gp; gr]; [gr; scan; gp]; [scan; gr; gp] ] =
  [ ("results", 1); ("results", 1); ("processing", 1);
    ("results", 0); ("processing", 0); ("processing", 0) ].
Proof.
  intros Hinp Hm Hstamp gp scan gr. subst gp scan gr.
  destruct u as [t p i o d m dl pg pv]. cbn [inp] in Hinp. subst i.
  cbn [map]. run_listeners ROOT app img. reflexivity.
Qed.

(** X3: a detect click with an image on which the detector faults: the
    annotated image, the table, the status text and the download link stay
    as they were, no file is written and the clock is read once; the tab
    listeners still run, so the selected tab leaves Upload and the
    progress is 0. *)
Theorem faulting_detect_click (app : App) (ls : list Listener) (u : UI)
    (img : ndarray) (e : Py.exn) (w : World) :
  Permutation ls (detect_btn_click ROOT app) ->
  inp u = Some img -> model app img = inl e ->
  let s := click ls (u, w) in
  out_img (fst s) = out_img u /\ detections (fst s) = detections u /\
  meta (fst s) = meta u /\ download (fst s) = download u /\
  inp (fst s) = Some img /\ page (fst s) = page u /\
  files (snd s) = files w /\ dirs (snd s) = dirs w /\
  time_calls (snd s) = S (time_calls w) /\
  prog (fst s) = 0 /\
  (tabs (fst s) = "processing" \/ tabs (fst s) = "results").
Proof.
  intros Hls Hinp Hm.
  destruct u as [t p i o d m dl pg pv]. cbn [inp] in Hinp. subst i.
  apply perm_three in Hls as [-> | [-> | [-> | [-> | [-> | ->]]]]];
    run_listeners ROOT app img; cbn [fst snd];
    rewrite files_before_inference, dirs_before_inference, time_calls_before_inference;
    cbn; repeat split; auto.
Qed.

(** X4: a scan followed by "New Scan": the page is cleared, link included,
    but the file the scan saved stays on disk with the annotated image;
    nothing in the code removes it. *)
Theorem new_scan_keeps_result_file (app : App) (ls1 ls2 : list Listener) (u : UI)
    (img : ndarray) (r : Results) (w : World) :
  Permutation ls1 (detect_btn_click ROOT app) -> Permutation ls2 new_btn_click ->
  inp u = Some img -> model app img = inr r -> clock_ok w ->
  exists stamp,
    Py.int (time_source w (2 + time_calls w)%nat) = inr stamp /\
    let s := click ls2 (click ls1 (u, w)) in
    inp (fst s) = None /\ out_img (fst s) = None /\ detections (fst s) = [] /\
    meta (fst s) = "" /\ download (fst s) = None /\ tabs (fst s) = "upload" /\
    snd s = after_scan ROOT stamp (plot r) w /\
    files (snd s) !! out_path ROOT stamp = Some (Png (plot r)).
Proof.
  intros Hls1 Hls2 Hinp Hm Hclock.
  destruct (int_finite _ (Hclock (2 + time_calls w)%nat)) as [stamp Hstamp].
  exists stamp. split; [exact Hstamp|].
  destruct u as [t p i o d m dl pg pv]. cbn [inp] in Hinp. subst i.
  apply perm_two in Hls2 as [-> | ->];
    apply perm_three in Hls1 as [-> | [-> | [-> | [-> | [-> | ->]]]]];
    run_listeners ROOT app img; cbn [fst snd];
    rewrite files_out_path_after_scan; cbn; repeat split; auto.
Qed.

End Clicks.

Section Sessions.

Variable ROOT : string.
Variable app : App.

Lemma click_preserves (P : UI * World -> Prop) ls s :
  (forall l s', In l ls -> P s' -> P (run_listener l s')) -> P s -> P (click ls s).
Proof.
  unfold click. revert s. induction ls as [|l ls IH]; intros s Hl Hs; [exact Hs|].
  cbn [fold_left]. apply IH.
  - intros l' s' Hin. apply Hl. by right.
  - apply Hl; [by left|exact Hs].
Qed.

Lemma keeps_files_same w0 w w' :
  files w' = files w -> dirs w' = dirs w -> keeps_files w0 w -> keeps_files w0 w'.
Proof. intros Hf Hd [Hf0 Hd0]. split; [by rewrite Hf|by rewrite Hd]. Qed.

Lemma keeps_files_after_scan w0 stamp a w :
  keeps_files w0 w -> keeps_files w0 (after_scan ROOT stamp a w).
Proof.
  intros [Hf Hd]. split.
  - intros p Hp. rewrite files_after_scan.
    destruct (decide (out_path ROOT stamp = p)) as [->|Hne].
    + rewrite lookup_insert_eq. by eexists.
    + rewrite lookup_insert_ne by done. by apply Hf.
  - by rewrite dirs_after_scan.
Qed.

Lemma link_ok_same u w w' :
  files w' = files w -> link_ok (u, w) -> link_ok (u, w').
Proof.
  intros Hf Hlink p Hp. destruct (Hlink p Hp) as (a & Ha & Hfile).
  exists a. split; [exact Ha|]. change (files w' !! p = Some (Png a)). by rewrite Hf.
Qed.

Lemma session_inv_scan w0 s :
  session_inv w0 s -> session_inv w0 (run_listener (on_run_detection ROOT app) s).
Proof.
  destruct s as [u w]. intros (Hpage & Hlink & Hkeep).
  destruct (inp u) as [img|] eqn:Hinp.
  - rewrite (run_on_detection_course ROOT app u img w Hinp).
    destruct (model app img) as [e|r].
    { split; [exact Hpage|]. split.
      - apply (link_ok_same u w (before_inference w));
          [apply files_before_inference|exact Hlink].
      - apply (keeps_files_same w0 w (before_inference w));
          [apply files_before_inference|apply dirs_before_inference|exact Hkeep]. }
    destruct (Py.int _) as [e|stamp].
    { split; [exact Hpage|]. split.
      - apply (link_ok_same u w (tick (tick (before_inference w)))); [|exact Hlink].
        by rewrite !files_tick, files_before_inference.
      - apply (keeps_files_same w0 w (tick (tick (before_inference w)))); [| |exact Hkeep].
        + by rewrite !files_tick, files_before_inference.
        + by rewrite !dirs_tick, dirs_before_inference. }
    destruct Hpage as (Hpg & Hpv & Hprog & Htabs).
    split; [split; [exact Hpg|]; split; [exact Hpv|]; split; [by right|exact Htabs]|].
    split.
    + intros p Hp. injection Hp as <-.
      exists (plot r). split; [reflexivity|]. apply files_out_path_after_scan.
    + by apply keeps_files_after_scan.
  - rewrite (run_on_detection_none ROOT app u w Hinp).
    destruct Hpage as (Hpg & Hpv & Hprog & Htabs).
    split; [split; [exact Hpg|]; split; [exact Hpv|]; split; [by left|exact Htabs]|].
    split; [|exact Hkeep].
    intros p Hp. discriminate Hp.
Qed.

Lemma session_inv_tabs w0 t u w :
  t = "upload" \/ t = "processing" \/ t = "results" ->
  session_inv w0 (u, w) -> session_inv w0 (set_tabs t u, w).
Proof.
  intros Ht ((Hpg & Hpv & Hprog & _) & Hlink & Hkeep).
  split; [by repeat split|]. by split.
Qed.

Lemma session_inv_listener w0 l s :
  In l (detect_btn_click ROOT app) \/ In l new_btn_click ->
  session_inv w0 s -> session_inv w0 (run_listener l s).
Proof.
  destruct s as [u w].
  intros [[<- | [<- | [<- | []]]] | [<- | [<- | []]]] Hinv.
  - rewrite run_on_go_processing.
    apply (session_inv_tabs w0 "processing") in Hinv; [|auto].
    destruct Hinv as ((Hpg & Hpv & _ & Htabs) & Hlink & Hkeep).
    split; [repeat split; cbn; auto|]. by split.
  - by apply session_inv_scan.
  - rewrite run_on_go_results. apply session_inv_tabs; auto.
  - rewrite run_on_reset_all.
    destruct Hinv as ((Hpg & Hpv & _ & Htabs) & Hlink & Hkeep).
    split; [repeat split; cbn; auto|]. split; [|exact Hkeep].
    intros p Hp. discriminate Hp.
  - rewrite run_on_go_upload. apply session_inv_tabs; auto.
Qed.

Lemma session_inv_step w0 s s' :
  step ROOT app s s' -> session_inv w0 s -> session_inv w0 s'.
Proof.
  intros [i u w|ls s0 Hls|ls s0 Hls] Hinv.
  - destruct Hinv as (Hpage & Hlink & Hkeep).
    split; [exact Hpage|]. split; [exact Hlink|exact Hkeep].
  - apply click_preserves; [|exact Hinv].
    intros l s1 Hin. apply session_inv_listener. left.
    by apply (Permutation_in _ Hls).
  - apply click_preserves; [|exact Hinv].
    intros l s1 Hin. apply session_inv_listener. right.
    by apply (Permutation_in _ Hls).
Qed.

Lemma session_inv_reachable w0 s : reachable ROOT app w0 s -> session_inv w0 s.
Proof.
  unfold reachable. revert s. apply rtc_ind_r.
  - split; [by repeat split; auto|]. split; [intros p Hp; discriminate Hp|].
    by split.
  - intros s1 s2 _ Hstep IH. by apply (session_inv_step w0 s1).
Qed.

(** X5: through a whole session the [page] state stays "upload" and the
    [progress_value] state stays 0, whatever the selected tab: no listener
    writes them except [reset_all], which writes "upload"; the progress
    slider only ever holds 0 or 1. *)
Theorem page_state_never_changes (w0 : World) (s : UI * World) :
  reachable ROOT app w0 s ->
  page (fst s) = "upload" /\ progress_value (fst s) = 0 /\
  (prog (fst s) = 0 \/ prog (fst s) = 1) /\
  (tabs (fst s) = "upload" \/ tabs (fst s) = "processing" \/ tabs (fst s) = "results").
Proof. intros Hr. by destruct (session_inv_reachable w0 s Hr) as (Hpage & _ & _). Qed.

(** X6: through a whole session, a download link on the page names a file
    that exists and holds exactly the annotated image the page shows. *)
Theorem download_link_names_shown_image (w0 : World) (s : UI * World) (p : string) :
  reachable ROOT app w0 s ->
  download (fst s) = Some p ->
  exists a, out_img (fst s) = Some a /\ files (snd s) !! p = Some (Png a).
Proof. intros Hr. destruct (session_inv_reachable w0 s Hr) as (_ & Hlink & _). apply Hlink. Qed.

(** X7: a session never removes a file and never makes or removes a
    directory: every file of the initial world is still there, whatever
    the user uploads and clicks. *)
Theorem session_never_deletes (w0 : World) (s : UI * World) (p : string) :
  reachable ROOT app w0 s ->
  dirs (snd s) = dirs w0 /\
  (is_Some (files w0 !! p) -> is_Some (files (snd s) !! p)).
Proof.
  intros Hr. destruct (session_inv_reachable w0 s Hr) as (_ & _ & [Hf Hd]).
  split; [exact Hd|apply Hf].
Qed.

End Sessions.

Section Startup.

Variable ROOT : string.
Variable YOLO : string -> Py.exn + Detector.

Lemma weights_not_outputs : WEIGHTS ROOT <> OUTPUTS ROOT.
Proof.
  unfold WEIGHTS, OUTPUTS, joinpath. rewrite append_assoc. intros H.
  apply (inj (String.append ROOT)) in H. discriminate H.
Qed.

Lemma weights_found_add_dir w :
  weights_found ROOT (add_dir (OUTPUTS ROOT) w) = weights_found ROOT w.
Proof.
  unfold weights_found. apply bool_decide_ext. cbn [files dirs add_dir].
  rewrite elem_of_union, elem_of_singleton. pose proof weights_not_outputs. tauto.
Qed.

(** The whole of what the module does before it builds the page. *)
Lemma startup_course w :
  startup ROOT YOLO w =
  (match YOLO (if weights_found ROOT w then WEIGHTS ROOT else "yolov8n.pt") with
   | inr m => inr {| model := m; MODEL_MODE := startup_mode ROOT w |}
   | inl e => inl e
   end, add_dir (OUTPUTS ROOT) w).
Proof.
  unfold startup, mkdir. unfold mbind at 1, M_bind at 1.
  unfold load_model, exists_. unfold mbind at 1, M_bind at 1.
  unfold mbind at 1, M_bind at 1.
  change (bool_decide _) with (weights_found ROOT (add_dir (OUTPUTS ROOT) w)).
  rewrite weights_found_add_dir. unfold startup_mode.
  destruct (weights_found ROOT w); rewrite bind_lift; by destruct (YOLO _).
Qed.

(** X8: at startup, where no regular file stands in the way of the output
    directory: afterwards the directory exists, whether it did before or
    not and whether the model loads or not; no file is touched; and making
    the directory does not disturb the test for the weights file, so the
    model and the status recorded are those of the world the program
    started in.  A failure to load the model ends the startup with that
    failure. *)
Theorem startup_makes_outputs_then_loads (w : World) :
  files w !! OUTPUTS ROOT = None ->
  let res := fst (startup ROOT YOLO w) in
  let w' := snd (startup ROOT YOLO w) in
  OUTPUTS ROOT ∈ dirs w' /\
  dirs w' = {[ OUTPUTS ROOT ]} ∪ dirs w /\
  files w' = files w /\ trace w' = trace w /\ time_calls w' = time_calls w /\
  (forall m, YOLO (if weights_found ROOT w then WEIGHTS ROOT else "yolov8n.pt") = inr m ->
     res = inr {| model := m; MODEL_MODE := startup_mode ROOT w |}) /\
  (forall e, YOLO (if weights_found ROOT w then WEIGHTS ROOT else "yolov8n.pt") = inl e ->
     res = inl e) /\
  (OUTPUTS ROOT ∈ dirs w -> dirs w' = dirs w).
Proof.
  intros _ res w'. subst res w'. rewrite startup_course. cbn [fst snd dirs files trace time_calls add_dir].
  split; [by apply elem_of_union_l, elem_of_singleton|].
  split; [done|]. split; [done|]. split; [done|]. split; [done|].
  split; [by intros m ->|]. split; [by intros e ->|].
  intros Hin. by apply subseteq_union_1_L, singleton_subseteq_l.
Qed.

(** X9: the status text of every scan quotes the mode recorded at startup:
    for an application that started in world [w0], the text of a completed
    scan is the "Using local model" line when the weights file was there
    at startup and the "Demo mode" line when it was not, then the elapsed
    time with two decimals, then the privacy line. *)
Theorem scan_status_quotes_startup_mode (w0 w1 : World) (app : App)
    (img : ndarray) (r : Results) (w : World) :
  startup ROOT YOLO w0 = (inr app, w1) ->
  model app img = inr r -> clock_ok w ->
  exists a rows d w',
    _run_detection ROOT app (Some img) w =
      (inr (1, a, rows,
            startup_mode ROOT w0 +:+ nl +:+ "Processed in " +:+
            Py.format_f 2 (time_source w (1 + time_calls w)%nat -
                           time_source w (time_calls w))%float +:+
            "s" +:+ nl +:+
            "Privacy: Uploads are processed on demand and not stored permanently.",
            d), w') /\
    (startup_mode ROOT w0 = local_mode \/ startup_mode ROOT w0 = demo_mode).
Proof.
  intros Hstart Hm Hclock. rewrite startup_course in Hstart.
  destruct (YOLO _) as [e|m]; [discriminate|]. injection Hstart as <- _.
  destruct (run_detection_returns ROOT _ img r w Hm Hclock) as (stamp & _ & Hrun).
  do 4 eexists. split; [exact Hrun|].
  unfold startup_mode. destruct (weights_found ROOT w0); auto.
Qed.

End Startup.

Section Table.

(** X10: the table always fits the two columns of the page: every row has
    exactly two cells, and there is one row per detected object, or the
    one placeholder row when there is none. *)
Theorem table_shape (r : Results) :
  Forall (fun row => length row = 2%nat) (detection_rows r) /\
  length (detection_rows r) = Nat.max 1 (length (default [] (boxes r))).
Proof.
  destruct (boxes r) as [[|b bs]|] eqn:Hb.
  - rewrite detection_rows_none by auto. split; [by repeat constructor|done].
  - rewrite (detection_rows_boxes r (b :: bs)) by done. split.
    + apply Forall_fmap, Forall_true. reflexivity.
    + rewrite length_map. simpl. lia.
  - rewrite detection_rows_none by auto. split; [by repeat constructor|done].
Qed.

Lemma percent_not_dash (s : string) : s +:+ "%" <> "—".
Proof.
  destruct s as [|c1 [|c2 [|c3 [|c4 s]]]]; discriminate.
Qed.

(** X11: the placeholder row cannot be mistaken for a detection: the table is
    the single row ["None", "—"] exactly when the detector found no
    object, even when an object is labelled "None". *)
Theorem sentinel_iff_nothing_found (r : Results) :
  detection_rows r = [["None"; "—"]] <-> boxes r = None \/ boxes r = Some [].
Proof.
  split; [|apply detection_rows_none].
  destruct (boxes r) as [[|b bs]|] eqn:Hb; auto.
  rewrite (detection_rows_boxes r (b :: bs)) by done. cbn [map]. unfold row_of at 1.
  intros H. injection H as _ H _. by apply percent_not_dash in H.
Qed.

End Table.

Section TwoScans.

Variable ROOT : string.

Lemma time_source_log ev w : time_source (log ev w) = time_source w.
Proof. reflexivity. Qed.

Lemma time_source_write p f w : time_source (write p f w) = time_source w.
Proof. reflexivity. Qed.

Lemma time_source_tick w : time_source (tick w) = time_source w.
Proof. reflexivity. Qed.

Lemma time_calls_log ev w : time_calls (log ev w) = time_calls w.
Proof. reflexivity. Qed.

Lemma time_calls_write p f w : time_calls (write p f w) = time_calls w.
Proof. reflexivity. Qed.

Lemma time_calls_tick w : time_calls (tick w) = S (time_calls w).
Proof. reflexivity. Qed.

Lemma time_source_before_inference w :
  time_source (before_inference w) = time_source w.
Proof. unfold before_inference. by rewrite time_source_logs. Qed.

Lemma time_source_after_scan stamp a w :
  time_source (after_scan ROOT stamp a w) = time_source w.
Proof.
  unfold after_scan.
  rewrite time_source_log, time_source_write, !time_source_tick.
  apply time_source_before_inference.
Qed.

Lemma time_calls_after_scan stamp a w :
  time_calls (after_scan ROOT stamp a w) = (3 + time_calls w)%nat.
Proof.
  unfold after_scan.
  rewrite time_calls_log, time_calls_write, !time_calls_tick.
  by rewrite time_calls_before_inference.
Qed.

Lemma clock_ok_after_scan stamp a w :
  clock_ok w -> clock_ok (after_scan ROOT stamp a w).
Proof. intros Hc n. rewrite time_source_after_scan. apply Hc. Qed.

(** X12: two scans one after the other, both completed: the second is saved
    under the whole seconds of the sixth clock reading.  When the two
    stamps differ both files are on disk, each with its own annotated
    image; when they are equal only one file is left, and it holds the
    image of the second scan. *)
Theorem two_scans (app : App) (img1 img2 : ndarray) (r1 r2 : Results) (w : World) :
  model app img1 = inr r1 -> model app img2 = inr r2 -> clock_ok w ->
  exists s1 s2 o1 o2 w1 w2,
    _run_detection ROOT app (Some img1) w = (inr o1, w1) /\
    _run_detection ROOT app (Some img2) w1 = (inr o2, w2) /\
    Py.int (time_source w (2 + time_calls w)%nat) = inr s1 /\
    Py.int (time_source w (5 + time_calls w)%nat) = inr s2 /\
    files w2 !! out_path ROOT s2 = Some (Png (plot r2)) /\
    (s1 <> s2 -> files w2 !! out_path ROOT s1 = Some (Png (plot r1))) /\
    (s1 = s2 -> files w2 = <[out_path ROOT s2 := Png (plot r2)]> (files w)).
Proof.
  intros Hm1 Hm2 Hclock.
  destruct (run_detection_returns ROOT app img1 r1 w Hm1 Hclock) as (s1 & Hs1 & Hrun1).
  pose proof (clock_ok_after_scan s1 (plot r1) w Hclock) as Hclock1.
  destruct (run_detection_returns ROOT app img2 r2 _ Hm2 Hclock1) as (s2 & Hs2 & Hrun2).
  rewrite time_source_after_scan, time_calls_after_scan in Hs2.
  exists s1, s2. do 4 eexists.
  split; [exact Hrun1|]. split; [exact Hrun2|].
  split; [exact Hs1|]. split; [exact Hs2|].
  rewrite !files_after_scan. split; [apply lookup_insert_eq|]. split.
  - intros Hne. rewrite lookup_insert_ne, lookup_insert_eq; [done|].
    intros Heq. apply out_path_inj in Heq. congruence.
  - intros ->. apply insert_insert_eq.
Qed.

End TwoScans.

Section Pauses.

Variable ROOT : string.


End Pauses.

(** * Concrete sessions *)

Lemma detect_click_shows_results_witness :
  exists stamp,
    Py.int (time_source world0 (2 + time_calls world0)%nat) = inr stamp /\
    let s := click [on_go_results; on_run_detection root0 app0; on_go_processing]
               (ui_ready, world0) in
    out_img (fst s) = Some (plot knife_gun) /\
    detections (fst s) = detection_rows knife_gun /\
    meta (fst s) = run_details app0 (time_source world0 (time_calls world0))
                     (time_source world0 (1 + time_calls world0)%nat) /\
    download (fst s) = Some (out_path root0 stamp) /\
    inp (fst s) = Some image0 /\
    page (fst s) = page ui_ready /\
    snd s = after_scan root0 stamp (plot knife_gun) world0 /\
    files (snd s) !! out_path root0 stamp = Some (Png (plot knife_gun)) /\
    (tabs (fst s) = "processing" \/ tabs (fst s) = "results") /\
    (prog (fst s) = 0 \/ prog (fst s) = 1).
Proof.
  apply (detect_click_shows_results root0 app0
           [on_go_results; on_run_detection root0 app0; on_go_processing]
           ui_ready image0 knife_gun world0).
  - unfold detect_btn_click. apply Permutation_rev.
  - reflexivity.
  - reflexivity.
  - apply clock0_ok.
Defined.

Lemma detect_click_order_matters_witness :
  let gp := on_go_processing in
  let scan := on_run_detection root0 app0 in
  let gr := on_go_results in
  map (fun ls => (tabs (fst (click ls (ui_ready, world0))),
                  prog (fst (click ls (ui_ready, world0)))))
    [ [gp; scan; gr]; [gp; gr; scan]; [gr; gp; scan];
      [scan; gp; gr]; [gr; scan; gp]; [scan; gr; gp] ] =
  [ ("results", 1); ("results", 1); ("processing", 1);
    ("results", 0); ("processing", 0); ("processing", 0) ].
Proof.
  apply (detect_click_order_matters root0 app0 ui_ready image0 knife_gun 1700000001 world0).
  - reflexivity.
  - reflexivity.
  - vm_compute. reflexivity.
Defined.

Lemma faulting_detect_click_witness :
  let s := click [on_go_results; on_run_detection root0 faulty_app; on_go_processing]
             (set_inp (Some image0) ui_shown, world_prior) in
  out_img (fst s) = out_img (set_inp (Some image0) ui_shown) /\
  detections (fst s) = detections (set_inp (Some image0) ui_shown) /\
  meta (fst s) = meta (set_inp (Some image0) ui_shown) /\
  download (fst s) = download (set_inp (Some image0) ui_shown) /\
  inp (fst s) = Some image0 /\ page (fst s) = page (set_inp (Some image0) ui_shown) /\
  files (snd s) = files world_prior /\ dirs (snd s) = dirs world_prior /\
  time_calls (snd s) = S (time_calls world_prior) /\
  prog (fst s) = 0 /\
  (tabs (fst s) = "processing" \/ tabs (fst s) = "results").
Proof.
  apply (faulting_detect_click root0 faulty_app
           [on_go_results; on_run_detection root0 faulty_app; on_go_processing]
           (set_inp (Some image0) ui_shown) image0
           (Py.RuntimeError "inference failed") world_prior).
  - unfold detect_btn_click. apply Permutation_rev.
  - reflexivity.
  - reflexivity.
Defined.

Lemma new_scan_keeps_result_file_witness :
  exists stamp,
    Py.int (time_source world0 (2 + time_calls world0)%nat) = inr stamp /\
    let s := click [on_go_upload; on_reset_all]
               (click (detect_btn_click root0 app0) (ui_ready, world0)) in
    inp (fst s) = None /\ out_img (fst s) = None /\ detections (fst s) = [] /\
    meta (fst s) = "" /\ download (fst s) = None /\ tabs (fst s) = "upload" /\
    snd s = after_scan root0 stamp (plot knife_gun) world0 /\
    files (snd s) !! out_path root0 stamp = Some (Png (plot knife_gun)).
Proof.
  apply (new_scan_keeps_result_file root0 app0 (detect_btn_click root0 app0)
           [on_go_upload; on_reset_all] ui_ready image0 knife_gun world0).
  - apply Permutation_refl.
  - unfold new_btn_click. apply perm_swap.
  - reflexivity.
  - reflexivity.
  - apply clock0_ok.
Defined.

Lemma session0_reachable : reachable root0 app0 world_prior session0.
Proof.
  unfold reachable, session0.
  eapply rtc_l; [apply (step_input root0 app0 (Some image0))|].
  eapply rtc_l; [|apply rtc_refl].
  apply (step_detect root0 app0 (detect_btn_click root0 app0)). apply Permutation_refl.
Qed.

Lemma session0_download : download (fst session0) = Some (out_path root0 1700000001).
Proof. vm_compute. reflexivity. Qed.

Lemma page_state_never_changes_witness :
  page (fst session0) = "upload" /\ progress_value (fst session0) = 0 /\
  (prog (fst session0) = 0 \/ prog (fst session0) = 1) /\
  (tabs (fst session0) = "upload" \/ tabs (fst session0) = "processing" \/
   tabs (fst session0) = "results").
Proof.
  apply (page_state_never_changes root0 app0 world_prior session0).
  apply session0_reachable.
Defined.

Lemma download_link_names_shown_image_witness :
  exists a, out_img (fst session0) = Some a /\
            files (snd session0) !! out_path root0 1700000001 = Some (Png a).
Proof.
  apply (download_link_names_shown_image root0 app0 world_prior session0
           (out_path root0 1700000001)).
  - apply session0_reachable.
  - apply session0_download.
Defined.

Lemma session_never_deletes_witness :
  dirs (snd session0) = dirs world_prior /\
  (is_Some (files world_prior !! out_path root0 1700000001) ->
   is_Some (files (snd session0) !! out_path root0 1700000001)).
Proof.
  apply (session_never_deletes root0 app0 world_prior session0 (out_path root0 1700000001)).
  apply session0_reachable.
Defined.

Lemma startup_makes_outputs_then_loads_witness :
  let res := fst (startup root0 yolo0 world_weights) in
  let w' := snd (startup root0 yolo0 world_weights) in
  OUTPUTS root0 ∈ dirs w' /\
  dirs w' = {[ OUTPUTS root0 ]} ∪ dirs world_weights /\
  files w' = files world_weights /\ trace w' = trace world_weights /\
  time_calls w' = time_calls world_weights /\
  (forall m, yolo0 (if weights_found root0 world_weights
                    then WEIGHTS root0 else "yolov8n.pt") = inr m ->
     res = inr {| model := m; MODEL_MODE := startup_mode root0 world_weights |}) /\
  (forall e, yolo0 (if weights_found root0 world_weights
                    then WEIGHTS root0 else "yolov8n.pt") = inl e ->
     res = inl e) /\
  (OUTPUTS root0 ∈ dirs world_weights -> dirs w' = dirs world_weights).
Proof.
  apply (startup_makes_outputs_then_loads root0 yolo0 world_weights).
  vm_compute. reflexivity.
Defined.

(** The two startups, computed: with the weights file the local model is
    loaded, without it the public one. *)
Example startup_modes :
  fst (startup root0 yolo0 world_weights) = inr app0 /\
  fst (startup root0 yolo0 world0) =
    inr {| model := fun _ => inr knife_gun; MODEL_MODE := demo_mode |}.
Proof. split; vm_compute; reflexivity. Qed.

Lemma startup_world_weights :
  startup root0 yolo0 world_weights = (inr app0, add_dir (OUTPUTS root0) world_weights).
Proof. vm_compute. reflexivity. Qed.

Lemma scan_status_quotes_startup_mode_witness :
  exists a rows d w',
    _run_detection root0 app0 (Some image0) world0 =
      (inr (1, a, rows,
            startup_mode root0 world_weights +:+ nl +:+ "Processed in " +:+
            Py.format_f 2 (time_source world0 (1 + time_calls world0)%nat -
                           time_source world0 (time_calls world0))%float +:+
            "s" +:+ nl +:+
            "Privacy: Uploads are processed on demand and not stored permanently.",
            d), w') /\
    (startup_mode root0 world_weights = local_mode \/
     startup_mode root0 world_weights = demo_mode).
Proof.
  apply (scan_status_quotes_startup_mode root0 yolo0 world_weights
           (add_dir (OUTPUTS root0) world_weights) app0 image0 knife_gun world0).
  - apply startup_world_weights.
  - reflexivity.
  - apply clock0_ok.
Defined.

(** The status text of that scan, computed. *)
Example status_text :
  run_details app0 1700000000.25 1700000001.5 =
    "✅ Using local model: weights/best.pt" +:+ nl +:+ "Processed in 1.25s" +:+ nl +:+
    "Privacy: Uploads are processed on demand and not stored permanently.".
Proof. vm_compute. reflexivity. Qed.

Lemma two_scans_witness :
  exists s1 s2 o1 o2 w1 w2,
    _run_detection root0 app_echo (Some image0) world0 = (inr o1, w1) /\
    _run_detection root0 app_echo (Some old_pixels) w1 = (inr o2, w2) /\
    Py.int (time_source world0 (2 + time_calls world0)%nat) = inr s1 /\
    Py.int (time_source world0 (5 + time_calls world0)%nat) = inr s2 /\
    files w2 !! out_path root0 s2 =
      Some (Png (plot {| plot := old_pixels; names := ∅; boxes := None |})) /\
    (s1 <> s2 -> files w2 !! out_path root0 s1 =
       Some (Png (plot {| plot := image0; names := ∅; boxes := None |}))) /\
    (s1 = s2 -> files w2 =
       <[out_path root0 s2 := Png (plot {| plot := old_pixels; names := ∅; boxes := None |})]>
         (files world0)).
Proof.
  apply (two_scans root0 app_echo image0 old_pixels
           {| plot := image0; names := ∅; boxes := None |}
           {| plot := old_pixels; names := ∅; boxes := None |} world0).
  - reflexivity.
  - reflexivity.
  - apply clock0_ok.
Defined.
